(** * pkg/k8s/authz.go: discovery and authorization checks

    A shallow embedding of the access checks of [pkg/k8s/authz.go].  The
    Kubernetes client is an interface whose methods answer from, and may
    change, the state of the cluster; every check is a computation over that
    state which also records, in order, the requests it sends. *)

From Stdlib Require Import String List Bool Arith Lia.
Import ListNotations.
Local Open Scope string_scope.
Local Open Scope list_scope.

Set Implicit Arguments.

(** ** Go values *)

(** A non-nil Go [error].  [errors.New] and [fmt.Errorf] (without [%w]) both
    build an [errorString]; whatever else the client hands back is opaque to
    this package and lives in [clientError]. *)
Inductive error (T : Type) : Type :=
| errorString (s : string)
| clientError (e : T).

Arguments errorString {T} s.
Arguments clientError {T} e.

Definition errors_New {T : Type} (text : string) : error T := errorString text.

(** [len(s) > 0] on a Go string. *)
Definition nonempty (s : string) : bool := Nat.ltb 0 (String.length s).

(** ** k8s.io/apimachinery/pkg/runtime/schema *)
Module schema.
Record GroupKind : Type := { Group : string; Kind : string }.
End schema.

(** ** k8s.io/api/authorization/v1 (the fields this package touches, and
    [Subresource], [Denied] and [EvaluationError], which it leaves alone) *)
Module authV1.
Record ResourceAttributes : Type := {
  Namespace : string;
  Verb : string;
  Group : string;
  Version : string;
  Resource : string;
  Subresource : string;
  Name : string
}.

Record SubjectAccessReviewStatus : Type := {
  Allowed : bool;
  Denied : bool;
  Reason : string;
  EvaluationError : string
}.

(** The zero value of the status, as in a freshly built review. *)
Definition zeroStatus : SubjectAccessReviewStatus :=
  {| Allowed := false; Denied := false; Reason := ""; EvaluationError := "" |}.

(** [ResourceAttributes] is a pointer field: [None] is [nil]. *)
Record SelfSubjectAccessReviewSpec : Type := {
  ssar_ResourceAttributes : option ResourceAttributes
}.

Record SelfSubjectAccessReview : Type := {
  ssar_Spec : SelfSubjectAccessReviewSpec;
  ssar_Status : SubjectAccessReviewStatus
}.

Record SubjectAccessReviewSpec : Type := {
  sar_ResourceAttributes : option ResourceAttributes;
  User : string;
  Groups : list string
}.

Record SubjectAccessReview : Type := {
  sar_Spec : SubjectAccessReviewSpec;
  sar_Status : SubjectAccessReviewStatus
}.
End authV1.

(** ** k8s.io/apimachinery/pkg/apis/meta/v1 *)
Module metav1.
Record APIResource : Type := {
  Name : string;
  Namespaced : bool;
  Kind : string
}.

Record APIResourceList : Type := {
  GroupVersion : string;
  APIResources : list APIResource
}.

Record ListOptions : Type := {
  LabelSelector : string;
  FieldSelector : string;
  Limit : nat
}.

(** [metav1.ListOptions{}] *)
Definition zeroListOptions : ListOptions :=
  {| LabelSelector := ""; FieldSelector := ""; Limit := 0 |}.
End metav1.

(** ** k8s.io/api/discovery/v1beta1 *)
Module discovery.
Record EndpointSlice : Type := {
  Namespace : string;
  Name : string
}.

Record EndpointSliceList : Type := {
  Items : list EndpointSlice
}.
End discovery.

(** ** What this file takes from outside

    [authz.go] refers to package constants declared in another file of
    [pkg/k8s] and to two [String] methods of the Kubernetes libraries.  They
    are parameters of the development. *)
Class Env : Type := {
  ServiceProfileAPIVersion : string;
  ServiceProfileKind : string;
  LinkAPIGroup : string;
  LinkAPIVersion : string;
  LinkAPIGroupVersion : string;
  LinkKind : string;
  (** [schema.GroupKind]'s [String] method, which [%s] calls *)
  GroupKind_String : schema.GroupKind -> string;
  (** [discovery.SchemeGroupVersion.String()] *)
  discovery_SchemeGroupVersion_String : string
}.

(** ** The client and the requests it receives *)

Inductive Request : Type :=
| ServerResourcesForGroupVersion (groupVersion : string)
| SelfSubjectAccessReviews_Create (ssar : authV1.SelfSubjectAccessReview)
| SubjectAccessReviews_Create (sar : authV1.SubjectAccessReview)
| EndpointSlices_List (namespace : string) (opts : metav1.ListOptions).

(** [kubernetes.Interface], cut down to the four methods used here.  Each
    returns Go's pair of a result and an [error] ([None] is [nil]) together
    with the cluster state after the call. *)
Record Interface (T W : Type) : Type := {
  Discovery_ServerResourcesForGroupVersion :
    string -> W -> (metav1.APIResourceList * option (error T)) * W;
  AuthorizationV1_SelfSubjectAccessReviews_Create :
    authV1.SelfSubjectAccessReview -> W ->
    (authV1.SelfSubjectAccessReview * option (error T)) * W;
  AuthorizationV1_SubjectAccessReviews_Create :
    authV1.SubjectAccessReview -> W ->
    (authV1.SubjectAccessReview * option (error T)) * W;
  DiscoveryV1beta1_EndpointSlices_List :
    string -> metav1.ListOptions -> W ->
    (discovery.EndpointSliceList * option (error T)) * W
}.

(** ** Computations: cluster state in, value, requests sent and state out *)

Definition M (W A : Type) : Type := W -> (A * list Request) * W.

Definition ret {W A : Type} (a : A) : M W A := fun w => ((a, []), w).

Definition bind {W A B : Type} (m : M W A) (f : A -> M W B) : M W B :=
  fun w =>
    let '((a, sent), w1) := m w in
    let '((b, sent'), w2) := f a w1 in
    ((b, sent ++ sent'), w2).

Notation "x <- m ;; k" := (bind m (fun x => k))
  (at level 61, m at next level, right associativity).
Notation "' pat <- m ;; k" := (bind m (fun x => match x with pat => k end))
  (at level 61, pat pattern, m at next level, right associativity).

(** One round trip: record the request, take the client's answer. *)
Definition call {W A : Type} (rq : Request) (answer : W -> A * W) : M W A :=
  fun w => let '(a, w1) := answer w in ((a, [rq]), w1).

Definition result {W A : Type} (out : (A * list Request) * W) : A := fst (fst out).
Definition requests {W A : Type} (out : (A * list Request) * W) : list Request :=
  snd (fst out).
Definition cluster {W A : Type} (out : (A * list Request) * W) : W := snd out.

(** The outcome of a computation that ran after [sent] had gone out. *)
Definition after {W A : Type} (sent : list Request) (out : (A * list Request) * W)
  : (A * list Request) * W :=
  ((result out, sent ++ requests out), cluster out).

(** [for _, x := range l { if c, ok := body x; ok { return c } }; return rest] *)
Fixpoint range_return {A B : Type} (l : list A) (body : A -> option B) (rest : B) : B :=
  match l with
  | [] => rest
  | x :: l' =>
      match body x with
      | Some r => r
      | None => range_return l' body rest
      end
  end.

Definition isAccessReview (rq : Request) : bool :=
  match rq with
  | SelfSubjectAccessReviews_Create _ | SubjectAccessReviews_Create _ => true
  | _ => false
  end.

Definition isDiscovery (rq : Request) : bool :=
  match rq with
  | ServerResourcesForGroupVersion _ => true
  | _ => false
  end.

(** ** authz.go *)

Section Authz.
Context {T W : Type} {env : Env}.

Local Abbreviation err := (option (error T)).

(** [fmt.Errorf("not authorized to access %s: %s", gk, reason)] *)
Definition notAuthorizedReason (gk : schema.GroupKind) (reason : string) : error T :=
  errors_New ("not authorized to access " ++ GroupKind_String gk ++ ": " ++ reason)%string.

(** [fmt.Errorf("not authorized to access %s", gk)] *)
Definition notAuthorized (gk : schema.GroupKind) : error T :=
  errors_New ("not authorized to access " ++ GroupKind_String gk)%string.

Definition evaluateAccessReviewStatus
    (group resource : string) (status : authV1.SubjectAccessReviewStatus) : err :=
  if authV1.Allowed status then None
  else
    let gk := {| schema.Group := group; schema.Kind := resource |} in
    if nonempty (authV1.Reason status)
    then Some (notAuthorizedReason gk (authV1.Reason status))
    else Some (notAuthorized gk).

Definition ResourceAuthz (k8sClient : Interface T W)
    (namespace verb group version resource name : string) : M W err :=
  let ssar :=
    {| authV1.ssar_Spec :=
         {| authV1.ssar_ResourceAttributes :=
              Some {| authV1.Namespace := namespace;
                      authV1.Verb := verb;
                      authV1.Group := group;
                      authV1.Version := version;
                      authV1.Resource := resource;
                      authV1.Subresource := "";
                      authV1.Name := name |} |};
       authV1.ssar_Status := authV1.zeroStatus |} in
  '(result, e) <- call (SelfSubjectAccessReviews_Create ssar)
                    (AuthorizationV1_SelfSubjectAccessReviews_Create k8sClient ssar) ;;
  match e with
  | Some e => ret (Some e)
  | None => ret (evaluateAccessReviewStatus group resource (authV1.ssar_Status result))
  end.

Definition ResourceAuthzForUser (client : Interface T W)
    (namespace verb group version resource subresource name user : string)
    (userGroups : list string) : M W err :=
  let sar :=
    {| authV1.sar_Spec :=
         {| authV1.User := user;
            authV1.Groups := userGroups;
            authV1.sar_ResourceAttributes :=
              Some {| authV1.Namespace := namespace;
                      authV1.Verb := verb;
                      authV1.Group := group;
                      authV1.Version := version;
                      authV1.Resource := resource;
                      authV1.Subresource := subresource;
                      authV1.Name := name |} |};
       authV1.sar_Status := authV1.zeroStatus |} in
  '(result, e) <- call (SubjectAccessReviews_Create sar)
                    (AuthorizationV1_SubjectAccessReviews_Create client sar) ;;
  match e with
  | Some e => ret (Some e)
  | None => ret (evaluateAccessReviewStatus group resource (authV1.sar_Status result))
  end.

Definition ServiceProfilesAccess (k8sClient : Interface T W) : M W err :=
  '(res, e) <- call (ServerResourcesForGroupVersion ServiceProfileAPIVersion)
                 (Discovery_ServerResourcesForGroupVersion k8sClient
                    ServiceProfileAPIVersion) ;;
  match e with
  | Some e => ret (Some e)
  | None =>
      let notFound : M W err := ret (Some (errors_New "ServiceProfile CRD not found")) in
      if String.eqb (metav1.GroupVersion res) ServiceProfileAPIVersion then
        range_return (metav1.APIResources res)
          (fun apiRes =>
             if String.eqb (metav1.Kind apiRes) ServiceProfileKind
             then Some (ResourceAuthz k8sClient "" "list" "linkerd.io" ""
                          "serviceprofiles" "")
             else None)
          notFound
      else notFound
  end.

Definition checkEndpointSlicesExist (k8sClient : Interface T W) : M W err :=
  '(sliceList, e) <- call (EndpointSlices_List "" metav1.zeroListOptions)
                       (DiscoveryV1beta1_EndpointSlices_List k8sClient ""
                          metav1.zeroListOptions) ;;
  match e with
  | Some e => ret (Some e)
  | None =>
      if Nat.ltb 0 (length (discovery.Items sliceList)) then ret None
      else ret (Some (errors_New "no EndpointSlice resources exist in the cluster"))
  end.

Definition EndpointSliceAccess (k8sClient : Interface T W) : M W err :=
  let gv := discovery_SchemeGroupVersion_String in
  '(res, e) <- call (ServerResourcesForGroupVersion gv)
                 (Discovery_ServerResourcesForGroupVersion k8sClient gv) ;;
  match e with
  | Some e => ret (Some e)
  | None =>
      let notFound : M W err :=
        ret (Some (errors_New "EndpointSlice resource not found")) in
      if String.eqb (metav1.GroupVersion res) gv then
        range_return (metav1.APIResources res)
          (fun apiRes =>
             if String.eqb (metav1.Kind apiRes) "EndpointSlice"
             then Some (checkEndpointSlicesExist k8sClient)
             else None)
          notFound
      else notFound
  end.

Definition LinkAccess (k8sClient : Interface T W) : M W err :=
  '(res, e) <- call (ServerResourcesForGroupVersion LinkAPIGroupVersion)
                 (Discovery_ServerResourcesForGroupVersion k8sClient
                    LinkAPIGroupVersion) ;;
  match e with
  | Some e => ret (Some e)
  | None =>
      let notFound : M W err := ret (Some (errors_New "Link CRD not found")) in
      if String.eqb (metav1.GroupVersion res) LinkAPIGroupVersion then
        range_return (metav1.APIResources res)
          (fun apiRes =>
             if String.eqb (metav1.Kind apiRes) LinkKind
             then Some (ResourceAuthz k8sClient "" "list" LinkAPIGroup LinkAPIVersion
                          "links" "")
             else None)
          notFound
      else notFound
  end.

Definition ClusterAccess (k8sClient : Interface T W) : M W err :=
  ResourceAuthz k8sClient "" "list" "" "" "pods" "".

(** ** The capability check of the design, for comparison

    The three probing checks repeat one pattern; this is that pattern written
    once, following the specification's [CheckCapability]: query discovery,
    fail fast on its error, report [notFound] unless the answer echoes the
    group-version and lists the kind, and otherwise hand over to [onFound]. *)

Definition kindListed (kind : string) (res : metav1.APIResourceList) : bool :=
  existsb (fun apiRes => String.eqb (metav1.Kind apiRes) kind) (metav1.APIResources res).

Definition confirmed (groupVersion kind : string) (res : metav1.APIResourceList) : bool :=
  String.eqb (metav1.GroupVersion res) groupVersion && kindListed kind res.

Definition CheckCapability (k8sClient : Interface T W) (groupVersion kind : string)
    (notFound : string) (onFound : M W err) : M W err :=
  '(res, e) <- call (ServerResourcesForGroupVersion groupVersion)
                 (Discovery_ServerResourcesForGroupVersion k8sClient groupVersion) ;;
  match e with
  | Some e => ret (Some e)
  | None =>
      if confirmed groupVersion kind res then onFound
      else ret (Some (errors_New notFound))
  end.

(** The same two conditions as propositions. *)
Definition present (groupVersion kind : string) (res : metav1.APIResourceList) : Prop :=
  metav1.GroupVersion res = groupVersion /\
  exists apiRes, In apiRes (metav1.APIResources res) /\ metav1.Kind apiRes = kind.

Definition absent (groupVersion kind : string) (res : metav1.APIResourceList) : Prop :=
  metav1.GroupVersion res <> groupVersion \/
  (forall apiRes, In apiRes (metav1.APIResources res) -> metav1.Kind apiRes <> kind).

(** What it means for [check] to be gated on the capability [(groupVersion,
    kind)]: given a discovery answer without error, an absent capability
    ends the check with the not-found error after that one request, and a
    present one makes the check continue as [onFound] from the state the
    discovery call left. *)
Definition CapabilityGate (k8sClient : Interface T W) (check : M W err)
    (groupVersion kind notFound : string) (onFound : M W err) : Prop :=
  forall (w w1 : W) (res : metav1.APIResourceList),
    Discovery_ServerResourcesForGroupVersion k8sClient groupVersion w = ((res, None), w1) ->
    (absent groupVersion kind res ->
       check w = ((Some (errors_New notFound),
                   [ServerResourcesForGroupVersion groupVersion]), w1)) /\
    (present groupVersion kind res ->
       check w = after [ServerResourcesForGroupVersion groupVersion] (onFound w1)).

(** What it means for discovery to come strictly first in [check]: an access
    review among its requests implies that the first request was the
    discovery probe, that the probe was answered without error and
    confirmed the capability, and that the review was sent after it; and on
    a cluster that answers the probe without the capability the check ends
    with the not-found error, which is not a not-authorized error, having
    sent no access review. *)
Definition DiscoveryFirst (k8sClient : Interface T W) (check : M W err)
    (groupVersion kind notFound : string) : Prop :=
  forall w : W,
    (forall rq, In rq (requests (check w)) -> isAccessReview rq = true ->
       exists res w1 later,
         Discovery_ServerResourcesForGroupVersion k8sClient groupVersion w
           = ((res, None), w1) /\
         present groupVersion kind res /\
         requests (check w) = ServerResourcesForGroupVersion groupVersion :: later /\
         In rq later) /\
    (forall res w1,
       Discovery_ServerResourcesForGroupVersion k8sClient groupVersion w
         = ((res, None), w1) ->
       absent groupVersion kind res ->
       result (check w) = Some (errors_New notFound) /\
       (forall gk reason,
          errors_New notFound <> notAuthorized gk /\
          errors_New notFound <> notAuthorizedReason gk reason) /\
       forallb (fun rq => negb (isAccessReview rq)) (requests (check w)) = true).

End Authz.

(** ** A concrete setting to run the checks in *)

(** [schema.GroupKind]'s [String] method as k8s.io/apimachinery defines it:
    the kind alone when the group is empty, and kind, a dot and the group
    otherwise. *)
Definition apimachinery_GroupKind_String (gk : schema.GroupKind) : string :=
  if Nat.eqb (String.length (schema.Group gk)) 0 then schema.Kind gk
  else (schema.Kind gk ++ "." ++ schema.Group gk)%string.

(** An environment to run the checks in: values for the package constants
    as linkerd2 declares them, and the two [String] methods of the
    libraries. *)
Definition linkerd : Env :=
  {| ServiceProfileAPIVersion := "linkerd.io/v1alpha2";
     ServiceProfileKind := "ServiceProfile";
     LinkAPIGroup := "multicluster.linkerd.io";
     LinkAPIVersion := "v1alpha1";
     LinkAPIGroupVersion := "multicluster.linkerd.io/v1alpha1";
     LinkKind := "Link";
     GroupKind_String := apimachinery_GroupKind_String;
     discovery_SchemeGroupVersion_String := "discovery.k8s.io/v1beta1" |}.

(** A scripted cluster: it serves one resource list per group-version, gives
    one verdict to every review and holds a fixed set of endpoint slices; any
    of the three may come with an error.  Its state counts the requests
    served. *)
Record Script : Type := {
  serves : string -> metav1.APIResourceList * option (error string);
  verdict : authV1.SubjectAccessReviewStatus * option (error string);
  slices : discovery.EndpointSliceList * option (error string)
}.

Definition scripted (sc : Script) : Interface string nat :=
  {| Discovery_ServerResourcesForGroupVersion := fun gv n => (serves sc gv, S n);
     AuthorizationV1_SelfSubjectAccessReviews_Create := fun ssar n =>
       (({| authV1.ssar_Spec := authV1.ssar_Spec ssar;
            authV1.ssar_Status := fst (verdict sc) |}, snd (verdict sc)), S n);
     AuthorizationV1_SubjectAccessReviews_Create := fun sar n =>
       (({| authV1.sar_Spec := authV1.sar_Spec sar;
            authV1.sar_Status := fst (verdict sc) |}, snd (verdict sc)), S n);
     DiscoveryV1beta1_EndpointSlices_List := fun _ _ n => (slices sc, S n) |}.

Definition apiResource (name kind : string) : metav1.APIResource :=
  {| metav1.Name := name; metav1.Namespaced := true; metav1.Kind := kind |}.

Definition noResources : metav1.APIResourceList :=
  {| metav1.GroupVersion := ""; metav1.APIResources := [] |}.

Definition allow : authV1.SubjectAccessReviewStatus :=
  {| authV1.Allowed := true; authV1.Denied := false;
     authV1.Reason := ""; authV1.EvaluationError := "" |}.

Definition deny (reason : string) : authV1.SubjectAccessReviewStatus :=
  {| authV1.Allowed := false; authV1.Denied := false;
     authV1.Reason := reason; authV1.EvaluationError := "" |}.

(** A cluster with all three APIs installed, one endpoint slice, and a
    permissive authorizer. *)
Definition installed (gv : string) : metav1.APIResourceList :=
  if String.eqb gv "linkerd.io/v1alpha2" then
    {| metav1.GroupVersion := gv;
       metav1.APIResources := [apiResource "trafficsplits" "TrafficSplit";
                               apiResource "serviceprofiles" "ServiceProfile"] |}
  else if String.eqb gv "multicluster.linkerd.io/v1alpha1" then
    {| metav1.GroupVersion := gv;
       metav1.APIResources := [apiResource "links" "Link"] |}
  else if String.eqb gv "discovery.k8s.io/v1beta1" then
    {| metav1.GroupVersion := gv;
       metav1.APIResources := [apiResource "endpointslices" "EndpointSlice"] |}
  else noResources.

Definition healthy : Script :=
  {| serves := fun gv => (installed gv, None);
     verdict := (allow, None);
     slices := ({| discovery.Items :=
                     [{| discovery.Namespace := "default";
                         discovery.Name := "web-abc12" |}] |}, None) |}.

(** The same cluster with a user who may not list anything. *)
Definition forbidden : Script :=
  {| serves := serves healthy;
     verdict := (deny "user cannot list resource", None);
     slices := slices healthy |}.

(** A cluster without the CRDs, without endpoint slices, and still with a
    denying authorizer: discovery answers, but with empty lists. *)
Definition bare : Script :=
  {| serves := fun gv => ({| metav1.GroupVersion := gv; metav1.APIResources := [] |}, None);
     verdict := (deny "user cannot list resource", None);
     slices := ({| discovery.Items := [] |}, None) |}.

(** A cluster that serves the EndpointSlice API but holds no slice. *)
Definition sliceless : Script :=
  {| serves := serves healthy;
     verdict := verdict healthy;
     slices := ({| discovery.Items := [] |}, None) |}.

(** An API server that cannot be reached. *)
Definition unreachable : Script :=
  {| serves := fun _ => (noResources, Some (clientError "connection refused"));
     verdict := (authV1.zeroStatus, Some (clientError "connection refused"));
     slices := ({| discovery.Items := [] |}, Some (clientError "connection refused")) |}.

(** A cluster whose discovery works while reviews and listings fail. *)
Definition flaky : Script :=
  {| serves := serves healthy;
     verdict := (allow, Some (clientError "i/o timeout"));
     slices := (fst (slices healthy), Some (clientError "i/o timeout")) |}.

(** The self-subject review [ResourceAuthz] builds, and the subject review
    [ResourceAuthzForUser] builds; the specification calls them
    [BuildSelfQuery] and [BuildSubjectQuery]. *)
Definition BuildSelfQuery (namespace verb group version resource name : string)
  : authV1.SelfSubjectAccessReview :=
  {| authV1.ssar_Spec :=
       {| authV1.ssar_ResourceAttributes :=
            Some {| authV1.Namespace := namespace;
                    authV1.Verb := verb;
                    authV1.Group := group;
                    authV1.Version := version;
                    authV1.Resource := resource;
                    authV1.Subresource := "";
                    authV1.Name := name |} |};
     authV1.ssar_Status := authV1.zeroStatus |}.

Definition BuildSubjectQuery
    (namespace verb group version resource subresource name user : string)
    (userGroups : list string) : authV1.SubjectAccessReview :=
  {| authV1.sar_Spec :=
       {| authV1.User := user;
          authV1.Groups := userGroups;
          authV1.sar_ResourceAttributes :=
            Some {| authV1.Namespace := namespace;
                    authV1.Verb := verb;
                    authV1.Group := group;
                    authV1.Version := version;
                    authV1.Resource := resource;
                    authV1.Subresource := subresource;
                    authV1.Name := name |} |};
     authV1.sar_Status := authV1.zeroStatus |}.

(** The resource attributes a request carries to the authorizer, if any. *)
Definition attributesOf (rq : Request) : option authV1.ResourceAttributes :=
  match rq with
  | SelfSubjectAccessReviews_Create ssar =>
      authV1.ssar_ResourceAttributes (authV1.ssar_Spec ssar)
  | SubjectAccessReviews_Create sar =>
      authV1.sar_ResourceAttributes (authV1.sar_Spec sar)
  | _ => None
  end.

(** A request that is not a subject review and carries no subresource. *)
Definition withoutSubresource (rq : Request) : bool :=
  match rq with
  | SubjectAccessReviews_Create _ => false
  | _ =>
      match attributesOf rq with
      | Some ra => String.eqb (authV1.Subresource ra) ""
      | None => true
      end
  end.

(** The denial message as the specification spells it, with a slash between
    group and kind. *)
Definition slashMessage (group kind reason : string) : string :=
  if nonempty reason
  then ("not authorized to access " ++ group ++ "/" ++ kind ++ ": " ++ reason)%string
  else ("not authorized to access " ++ group ++ "/" ++ kind)%string.

(** * Properties *)

Section Properties.
Context {T W : Type} {env : Env}.
Variable k8sClient : Interface T W.

Local Abbreviation err := (option (error T)).
Local Abbreviation discover := (Discovery_ServerResourcesForGroupVersion k8sClient).

(** ** The loop and the two conditions *)

Lemma range_return_existsb (A B : Type) (p : A -> bool) (c d : B) (l : list A) :
  range_return l (fun x => if p x then Some c else None) d
  = if existsb p l then c else d.
Proof.
  induction l as [|x l IH]; simpl; [reflexivity|].
  destruct (p x); simpl; [reflexivity | exact IH].
Qed.

Lemma kindListed_true kind res :
  kindListed kind res = true <->
  exists apiRes, In apiRes (metav1.APIResources res) /\ metav1.Kind apiRes = kind.
Proof.
  unfold kindListed. rewrite existsb_exists.
  split; intros [r [Hin Hk]]; exists r; split; auto.
  - now apply String.eqb_eq.
  - now apply String.eqb_eq.
Qed.

Lemma confirmed_present gv kind res :
  confirmed gv kind res = true <-> present gv kind res.
Proof.
  unfold confirmed, present.
  rewrite andb_true_iff, String.eqb_eq, kindListed_true. reflexivity.
Qed.

Lemma confirmed_absent gv kind res :
  confirmed gv kind res = false <-> absent gv kind res.
Proof.
  unfold confirmed, absent. rewrite andb_false_iff, String.eqb_neq.
  split; (intros [H|H]; [left; exact H | right]).
  - intros r Hin Hk.
    assert (kindListed kind res = true) as E by (apply kindListed_true; eauto).
    congruence.
  - destruct (kindListed kind res) eqn:E; [|reflexivity].
    apply kindListed_true in E. destruct E as [r [Hin Hk]].
    exfalso. exact (H r Hin Hk).
Qed.

Lemma absent_not_present gv kind res : absent gv kind res -> ~ present gv kind res.
Proof.
  intros Ha Hp. apply confirmed_absent in Ha. apply confirmed_present in Hp. congruence.
Qed.

(** ** How each function runs *)

Lemma ResourceAuthz_run namespace verb group version resource name (w : W) :
  ResourceAuthz k8sClient namespace verb group version resource name w
  = let ssar := BuildSelfQuery namespace verb group version resource name in
    let '((review, e), w1) :=
      AuthorizationV1_SelfSubjectAccessReviews_Create k8sClient ssar w in
    ((match e with
      | Some e => Some e
      | None => evaluateAccessReviewStatus group resource (authV1.ssar_Status review)
      end, [SelfSubjectAccessReviews_Create ssar]), w1).
Proof.
  unfold ResourceAuthz, bind, call, ret, BuildSelfQuery. cbv zeta.
  destruct (AuthorizationV1_SelfSubjectAccessReviews_Create _ _ _) as [[review [e|]] w1];
    reflexivity.
Qed.

Lemma ResourceAuthzForUser_run
    namespace verb group version resource subresource name user userGroups (w : W) :
  ResourceAuthzForUser k8sClient namespace verb group version resource subresource name
    user userGroups w
  = let sar := BuildSubjectQuery namespace verb group version resource subresource name
                 user userGroups in
    let '((review, e), w1) := AuthorizationV1_SubjectAccessReviews_Create k8sClient sar w in
    ((match e with
      | Some e => Some e
      | None => evaluateAccessReviewStatus group resource (authV1.sar_Status review)
      end, [SubjectAccessReviews_Create sar]), w1).
Proof.
  unfold ResourceAuthzForUser, bind, call, ret, BuildSubjectQuery. cbv zeta.
  destruct (AuthorizationV1_SubjectAccessReviews_Create _ _ _) as [[review [e|]] w1];
    reflexivity.
Qed.

Lemma checkEndpointSlicesExist_run (w : W) :
  checkEndpointSlicesExist k8sClient w
  = let '((sliceList, e), w1) :=
      DiscoveryV1beta1_EndpointSlices_List k8sClient "" metav1.zeroListOptions w in
    ((match e with
      | Some e => Some e
      | None =>
          if Nat.ltb 0 (length (discovery.Items sliceList)) then None
          else Some (errors_New "no EndpointSlice resources exist in the cluster")
      end, [EndpointSlices_List "" metav1.zeroListOptions]), w1).
Proof.
  unfold checkEndpointSlicesExist, bind, call, ret.
  destruct (DiscoveryV1beta1_EndpointSlices_List _ _ _ _) as [[sliceList [e|]] w1];
    [reflexivity|].
  destruct (Nat.ltb 0 _); reflexivity.
Qed.

Lemma CheckCapability_run gv kind notFound (onFound : M W err) (w : W) :
  CheckCapability k8sClient gv kind notFound onFound w
  = let '((res, e), w1) := discover gv w in
    match e with
    | Some e => ((Some e, [ServerResourcesForGroupVersion gv]), w1)
    | None =>
        if confirmed gv kind res
        then after [ServerResourcesForGroupVersion gv] (onFound w1)
        else ((Some (errors_New notFound), [ServerResourcesForGroupVersion gv]), w1)
    end.
Proof.
  unfold CheckCapability, bind, call, ret, after, result, requests, cluster.
  destruct (discover gv w) as [[res [e|]] w1]; [reflexivity|].
  destruct (confirmed gv kind res); [|reflexivity].
  destruct (onFound w1) as [[r sent] w2]; reflexivity.
Qed.

(** Each probing check is the capability check at its own probe. *)
Lemma ServiceProfilesAccess_refines (w : W) :
  ServiceProfilesAccess k8sClient w
  = CheckCapability k8sClient ServiceProfileAPIVersion ServiceProfileKind
      "ServiceProfile CRD not found"
      (ResourceAuthz k8sClient "" "list" "linkerd.io" "" "serviceprofiles" "") w.
Proof.
  unfold ServiceProfilesAccess, CheckCapability, bind, call, confirmed, kindListed.
  destruct (discover _ w) as [[res [e|]] w1]; [reflexivity|].
  rewrite range_return_existsb.
  destruct (String.eqb _ _); simpl; [|reflexivity].
  destruct (existsb _ _); reflexivity.
Qed.

Lemma EndpointSliceAccess_refines (w : W) :
  EndpointSliceAccess k8sClient w
  = CheckCapability k8sClient discovery_SchemeGroupVersion_String "EndpointSlice"
      "EndpointSlice resource not found" (checkEndpointSlicesExist k8sClient) w.
Proof.
  unfold EndpointSliceAccess, CheckCapability, bind, call, confirmed, kindListed.
  cbv zeta.
  destruct (discover _ w) as [[res [e|]] w1]; [reflexivity|].
  rewrite range_return_existsb.
  destruct (String.eqb _ _); simpl; [|reflexivity].
  destruct (existsb _ _); reflexivity.
Qed.

Lemma LinkAccess_refines (w : W) :
  LinkAccess k8sClient w
  = CheckCapability k8sClient LinkAPIGroupVersion LinkKind "Link CRD not found"
      (ResourceAuthz k8sClient "" "list" LinkAPIGroup LinkAPIVersion "links" "") w.
Proof.
  unfold LinkAccess, CheckCapability, bind, call, confirmed, kindListed.
  destruct (discover _ w) as [[res [e|]] w1]; [reflexivity|].
  rewrite range_return_existsb.
  destruct (String.eqb _ _); simpl; [|reflexivity].
  destruct (existsb _ _); reflexivity.
Qed.

(** ** Facts about the capability check, shared by the claims below *)

Section Capability.
Variables (check onFound : M W err) (gv kind notFound : string).
Hypothesis refines :
  forall w, check w = CheckCapability k8sClient gv kind notFound onFound w.

Lemma capability_error (w w1 : W) res e :
  discover gv w = ((res, Some e), w1) ->
  check w = ((Some e, [ServerResourcesForGroupVersion gv]), w1).
Proof. intros H. rewrite refines, CheckCapability_run, H. reflexivity. Qed.

Lemma capability_absent (w w1 : W) res :
  discover gv w = ((res, None), w1) -> absent gv kind res ->
  check w = ((Some (errors_New notFound), [ServerResourcesForGroupVersion gv]), w1).
Proof.
  intros H Ha. apply confirmed_absent in Ha.
  rewrite refines, CheckCapability_run, H, Ha. reflexivity.
Qed.

Lemma capability_present (w w1 : W) res :
  discover gv w = ((res, None), w1) -> present gv kind res ->
  check w = after [ServerResourcesForGroupVersion gv] (onFound w1).
Proof.
  intros H Hp. apply confirmed_present in Hp.
  rewrite refines, CheckCapability_run, H, Hp. reflexivity.
Qed.

Lemma capability_gated : CapabilityGate k8sClient check gv kind notFound onFound.
Proof.
  intros w w1 res H. split; intros Hc.
  - now apply capability_absent with (res := res).
  - now apply capability_present with (res := res).
Qed.

(** The requests of the check: the probe, then whatever [onFound] sends. *)
Lemma capability_requests (w : W) :
  requests (check w) = [ServerResourcesForGroupVersion gv] \/
  exists res w1,
    discover gv w = ((res, None), w1) /\ present gv kind res /\
    requests (check w) = ServerResourcesForGroupVersion gv :: requests (onFound w1).
Proof.
  rewrite refines, CheckCapability_run.
  destruct (discover gv w) as [[res [e|]] w1] eqn:H; [left; reflexivity|].
  destruct (confirmed gv kind res) eqn:Hc; [|left; reflexivity].
  right. exists res, w1. apply confirmed_present in Hc. auto.
Qed.

Lemma capability_requests_all (P : Request -> bool) (w : W) :
  P (ServerResourcesForGroupVersion gv) = true ->
  (forall w1, forallb P (requests (onFound w1)) = true) ->
  forallb P (requests (check w)) = true.
Proof.
  intros HP Hon.
  destruct (capability_requests w) as [E | [res [w1 [_ [_ E]]]]]; rewrite E; simpl;
    rewrite HP; [reflexivity|]. apply Hon.
Qed.

Lemma capability_first :
  (forall gk reason,
     errors_New (T := T) notFound <> notAuthorized gk /\
     errors_New (T := T) notFound <> notAuthorizedReason gk reason) ->
  DiscoveryFirst k8sClient check gv kind notFound.
Proof.
  intros Hmsg w. split.
  - intros rq Hin Hrev.
    destruct (capability_requests w) as [E | [res [w1 [Hd [Hp E]]]]].
    + rewrite E in Hin. destruct Hin as [<- | []]. discriminate Hrev.
    + exists res, w1, (requests (onFound w1)).
      split; [exact Hd|]. split; [exact Hp|]. split; [exact E|].
      rewrite E in Hin. destruct Hin as [<- | Hin]; [discriminate Hrev | exact Hin].
  - intros res w1 Hd Ha.
    rewrite (capability_absent _ Hd Ha).
    split; [reflexivity|]. split; [exact Hmsg | reflexivity].
Qed.

End Capability.

Arguments capability_error {check onFound gv kind notFound} refines w {w1 res e} _.
Arguments capability_absent {check onFound gv kind notFound} refines w {w1 res} _ _.
Arguments capability_present {check onFound gv kind notFound} refines w {w1 res} _ _.
Arguments capability_gated {check onFound gv kind notFound} refines.
Arguments capability_requests {check onFound gv kind notFound} refines w.
Arguments capability_requests_all {check onFound gv kind notFound} refines P w _ _.
Arguments capability_first {check onFound gv kind notFound} refines _.

Lemma ResourceAuthz_requests namespace verb group version resource name (w : W) :
  requests (ResourceAuthz k8sClient namespace verb group version resource name w)
  = [SelfSubjectAccessReviews_Create
       (BuildSelfQuery namespace verb group version resource name)].
Proof.
  rewrite ResourceAuthz_run. cbv zeta.
  destruct (AuthorizationV1_SelfSubjectAccessReviews_Create _ _ _) as [[review e] w1].
  reflexivity.
Qed.

Lemma checkEndpointSlicesExist_requests (w : W) :
  requests (checkEndpointSlicesExist k8sClient w)
  = [EndpointSlices_List "" metav1.zeroListOptions].
Proof.
  rewrite checkEndpointSlicesExist_run.
  destruct (DiscoveryV1beta1_EndpointSlices_List _ _ _ _) as [[sliceList e] w1].
  reflexivity.
Qed.

(** ** The claims *)

(** C1. Each of the three checks that probe discovery (profile access,
    endpoint-collection access, link access) is gated on its capability: when
    the discovery answer's group-version differs from the probed one, or no
    entry of the list has the expected kind, the check ends with the
    not-found error of that capability; otherwise it continues as its
    [onFound] computation, whose result and requests it returns as they
    are. *)
Theorem capability_gate :
  CapabilityGate k8sClient (ServiceProfilesAccess k8sClient)
    ServiceProfileAPIVersion ServiceProfileKind "ServiceProfile CRD not found"
    (ResourceAuthz k8sClient "" "list" "linkerd.io" "" "serviceprofiles" "") /\
  CapabilityGate k8sClient (EndpointSliceAccess k8sClient)
    discovery_SchemeGroupVersion_String "EndpointSlice"
    "EndpointSlice resource not found"
    (checkEndpointSlicesExist k8sClient) /\
  CapabilityGate k8sClient (LinkAccess k8sClient)
    LinkAPIGroupVersion LinkKind "Link CRD not found"
    (ResourceAuthz k8sClient "" "list" LinkAPIGroup LinkAPIVersion "links" "").
Proof.
  split; [|split].
  - exact (capability_gated ServiceProfilesAccess_refines).
  - exact (capability_gated EndpointSliceAccess_refines).
  - exact (capability_gated LinkAccess_refines).
Qed.

(** C2, as amended.  For a verdict that is not allowed,
    [evaluateAccessReviewStatus] fails with the message
    "not authorized to access ID: REASON" when the reason is non-empty and
    "not authorized to access ID" when it is empty, where ID is what the
    [String] method of the group-kind renders, a function of group and kind
    alone. *)
Theorem denied_message (group resource : string)
    (status : authV1.SubjectAccessReviewStatus) :
  authV1.Allowed status = false ->
  let id := GroupKind_String {| schema.Group := group; schema.Kind := resource |} in
  (authV1.Reason status <> "" ->
     evaluateAccessReviewStatus (T := T) group resource status
     = Some (errorString
               ("not authorized to access " ++ id ++ ": " ++ authV1.Reason status)%string)) /\
  (authV1.Reason status = "" ->
     evaluateAccessReviewStatus (T := T) group resource status
     = Some (errorString ("not authorized to access " ++ id)%string)).
Proof.
  intros Hdenied id. unfold evaluateAccessReviewStatus. rewrite Hdenied.
  split; intros Hreason.
  - destruct (authV1.Reason status) as [|c r] eqn:E; [congruence|]. reflexivity.
  - rewrite Hreason. reflexivity.
Qed.

(** C3. In each probing check discovery strictly precedes authorization: an
    access review is among the requests only when the discovery probe went
    out first, was answered without error and confirmed the capability; and
    where the answer lacks the capability the check returns the not-found
    error, never a not-authorized one, and sends no access review. *)
Theorem discovery_precedes_authorization :
  DiscoveryFirst k8sClient (ServiceProfilesAccess k8sClient)
    ServiceProfileAPIVersion ServiceProfileKind "ServiceProfile CRD not found" /\
  DiscoveryFirst k8sClient (EndpointSliceAccess k8sClient)
    discovery_SchemeGroupVersion_String "EndpointSlice"
    "EndpointSlice resource not found" /\
  DiscoveryFirst k8sClient (LinkAccess k8sClient)
    LinkAPIGroupVersion LinkKind "Link CRD not found".
Proof.
  split; [|split].
  - apply (capability_first ServiceProfilesAccess_refines).
    intros gk reason. split; discriminate.
  - apply (capability_first EndpointSliceAccess_refines).
    intros gk reason. split; discriminate.
  - apply (capability_first LinkAccess_refines).
    intros gk reason. split; discriminate.
Qed.

(** C4. [checkEndpointSlicesExist] sends one cluster-wide listing.  It
    succeeds exactly when the listing comes back without error and with at
    least one item; an empty listing gives the no-instances error, and an
    error of the listing is returned as it is. *)
Theorem instances_exist (w w1 : W) (sliceList : discovery.EndpointSliceList)
    (e : err) :
  DiscoveryV1beta1_EndpointSlices_List k8sClient "" metav1.zeroListOptions w
    = ((sliceList, e), w1) ->
  (result (checkEndpointSlicesExist k8sClient w) = None <->
     e = None /\ 1 <= length (discovery.Items sliceList)) /\
  (e = None -> discovery.Items sliceList = [] ->
     result (checkEndpointSlicesExist k8sClient w)
     = Some (errors_New "no EndpointSlice resources exist in the cluster")) /\
  (forall e0, e = Some e0 ->
     result (checkEndpointSlicesExist k8sClient w) = Some e0) /\
  requests (checkEndpointSlicesExist k8sClient w)
    = [EndpointSlices_List "" metav1.zeroListOptions] /\
  cluster (checkEndpointSlicesExist k8sClient w) = w1.
Proof.
  intros H. rewrite checkEndpointSlicesExist_run, H. unfold result, requests, cluster.
  simpl. repeat split.
  - destruct e as [e0|]; [discriminate|]. reflexivity.
  - destruct e as [e0|]; [discriminate|].
    destruct (Nat.ltb_spec 0 (length (discovery.Items sliceList))); [lia | discriminate].
  - intros [-> Hlen].
    destruct (Nat.ltb_spec 0 (length (discovery.Items sliceList))); [reflexivity | lia].
  - intros -> ->. reflexivity.
  - intros e0 ->. reflexivity.
Qed.

(** C5. For a verdict that is allowed, [evaluateAccessReviewStatus] returns
    nil whatever the reason (and the other fields of the status) hold. *)
Theorem allowed_succeeds (group resource reason evaluationError : string)
    (denied : bool) :
  evaluateAccessReviewStatus (T := T) group resource
    {| authV1.Allowed := true; authV1.Denied := denied;
       authV1.Reason := reason; authV1.EvaluationError := evaluationError |}
  = None.
Proof. reflexivity. Qed.

(** C6. [ClusterAccess] makes no discovery call: whatever the cluster, its
    requests are exactly one self-subject access review with verb "list",
    resource "pods" and empty namespace, group, version, subresource and
    name; and when that review comes back without error and allowed, the
    check returns nil. *)
Theorem ClusterAccess_only_authorizes (w : W) :
  let query :=
    {| authV1.ssar_Spec :=
         {| authV1.ssar_ResourceAttributes :=
              Some {| authV1.Namespace := "";
                      authV1.Verb := "list";
                      authV1.Group := "";
                      authV1.Version := "";
                      authV1.Resource := "pods";
                      authV1.Subresource := "";
                      authV1.Name := "" |} |};
       authV1.ssar_Status := authV1.zeroStatus |} in
  requests (ClusterAccess k8sClient w) = [SelfSubjectAccessReviews_Create query] /\
  forallb (fun rq => negb (isDiscovery rq)) (requests (ClusterAccess k8sClient w)) = true /\
  (forall review w1,
     AuthorizationV1_SelfSubjectAccessReviews_Create k8sClient query w
       = ((review, None), w1) ->
     authV1.Allowed (authV1.ssar_Status review) = true ->
     ClusterAccess k8sClient w = ((None, [SelfSubjectAccessReviews_Create query]), w1)).
Proof.
  intros query. unfold ClusterAccess.
  rewrite ResourceAuthz_requests. split; [reflexivity|]. split; [reflexivity|].
  intros review w1 H Hallowed. rewrite ResourceAuthz_run. cbv zeta.
  change (BuildSelfQuery "" "list" "" "" "pods" "") with query. rewrite H.
  unfold evaluateAccessReviewStatus. rewrite Hallowed. reflexivity.
Qed.

(** C7. [EndpointSliceAccess] never sends an access review, whatever the
    cluster answers.  Once discovery has confirmed the EndpointSlice kind and
    the cluster-wide listing has come back without error, its requests are
    the probe and the listing, and it returns nil when the listing has an
    item and the no-instances error when it has none. *)
Theorem EndpointSliceAccess_never_authorizes (w : W) :
  forallb (fun rq => negb (isAccessReview rq))
    (requests (EndpointSliceAccess k8sClient w)) = true /\
  (forall res w1 sliceList w2,
     discover discovery_SchemeGroupVersion_String w = ((res, None), w1) ->
     present discovery_SchemeGroupVersion_String "EndpointSlice" res ->
     DiscoveryV1beta1_EndpointSlices_List k8sClient "" metav1.zeroListOptions w1
       = ((sliceList, None), w2) ->
     requests (EndpointSliceAccess k8sClient w)
       = [ServerResourcesForGroupVersion discovery_SchemeGroupVersion_String;
          EndpointSlices_List "" metav1.zeroListOptions] /\
     cluster (EndpointSliceAccess k8sClient w) = w2 /\
     (discovery.Items sliceList <> [] ->
        result (EndpointSliceAccess k8sClient w) = None) /\
     (discovery.Items sliceList = [] ->
        result (EndpointSliceAccess k8sClient w)
        = Some (errors_New "no EndpointSlice resources exist in the cluster"))).
Proof.
  split.
  - apply (capability_requests_all EndpointSliceAccess_refines); [reflexivity|].
    intros w1. rewrite checkEndpointSlicesExist_requests. reflexivity.
  - intros res w1 sliceList w2 Hd Hp Hl.
    rewrite (capability_present EndpointSliceAccess_refines _ Hd Hp).
    rewrite checkEndpointSlicesExist_run, Hl.
    unfold after, result, requests, cluster. simpl.
    split; [reflexivity|]. split; [reflexivity|]. split.
    + destruct (discovery.Items sliceList); [congruence | reflexivity].
    + intros ->. reflexivity.
Qed.

(** C8. A non-nil error from the client is the result of the check, the very
    value the client returned, and the request that met it is the last one
    sent: from the discovery query of each probing check, from the
    access-review submission of [ResourceAuthz], [ResourceAuthzForUser] and
    [ClusterAccess], from the listing of [checkEndpointSlicesExist], and from
    the second round trip of each probing check. *)
Theorem transport_errors_propagate (e : error T) :
  (forall w res w1,
     discover ServiceProfileAPIVersion w = ((res, Some e), w1) ->
     ServiceProfilesAccess k8sClient w
     = ((Some e, [ServerResourcesForGroupVersion ServiceProfileAPIVersion]), w1)) /\
  (forall w res w1,
     discover discovery_SchemeGroupVersion_String w = ((res, Some e), w1) ->
     EndpointSliceAccess k8sClient w
     = ((Some e, [ServerResourcesForGroupVersion discovery_SchemeGroupVersion_String]),
        w1)) /\
  (forall w res w1,
     discover LinkAPIGroupVersion w = ((res, Some e), w1) ->
     LinkAccess k8sClient w
     = ((Some e, [ServerResourcesForGroupVersion LinkAPIGroupVersion]), w1)) /\
  (forall namespace verb group version resource name w review w1,
     AuthorizationV1_SelfSubjectAccessReviews_Create k8sClient
       (BuildSelfQuery namespace verb group version resource name) w
       = ((review, Some e), w1) ->
     ResourceAuthz k8sClient namespace verb group version resource name w
     = ((Some e,
         [SelfSubjectAccessReviews_Create
            (BuildSelfQuery namespace verb group version resource name)]), w1)) /\
  (forall namespace verb group version resource subresource name user userGroups
          w review w1,
     AuthorizationV1_SubjectAccessReviews_Create k8sClient
       (BuildSubjectQuery namespace verb group version resource subresource name
          user userGroups) w
       = ((review, Some e), w1) ->
     ResourceAuthzForUser k8sClient namespace verb group version resource subresource
       name user userGroups w
     = ((Some e,
         [SubjectAccessReviews_Create
            (BuildSubjectQuery namespace verb group version resource subresource name
               user userGroups)]), w1)) /\
  (forall w review w1,
     AuthorizationV1_SelfSubjectAccessReviews_Create k8sClient
       (BuildSelfQuery "" "list" "" "" "pods" "") w = ((review, Some e), w1) ->
     ClusterAccess k8sClient w
     = ((Some e,
         [SelfSubjectAccessReviews_Create (BuildSelfQuery "" "list" "" "" "pods" "")]),
        w1)) /\
  (forall w sliceList w1,
     DiscoveryV1beta1_EndpointSlices_List k8sClient "" metav1.zeroListOptions w
       = ((sliceList, Some e), w1) ->
     checkEndpointSlicesExist k8sClient w
     = ((Some e, [EndpointSlices_List "" metav1.zeroListOptions]), w1)) /\
  (forall w res w1 review w2,
     discover ServiceProfileAPIVersion w = ((res, None), w1) ->
     present ServiceProfileAPIVersion ServiceProfileKind res ->
     AuthorizationV1_SelfSubjectAccessReviews_Create k8sClient
       (BuildSelfQuery "" "list" "linkerd.io" "" "serviceprofiles" "") w1
       = ((review, Some e), w2) ->
     ServiceProfilesAccess k8sClient w
     = ((Some e,
         [ServerResourcesForGroupVersion ServiceProfileAPIVersion;
          SelfSubjectAccessReviews_Create
            (BuildSelfQuery "" "list" "linkerd.io" "" "serviceprofiles" "")]), w2)) /\
  (forall w res w1 sliceList w2,
     discover discovery_SchemeGroupVersion_String w = ((res, None), w1) ->
     present discovery_SchemeGroupVersion_String "EndpointSlice" res ->
     DiscoveryV1beta1_EndpointSlices_List k8sClient "" metav1.zeroListOptions w1
       = ((sliceList, Some e), w2) ->
     EndpointSliceAccess k8sClient w
     = ((Some e,
         [ServerResourcesForGroupVersion discovery_SchemeGroupVersion_String;
          EndpointSlices_List "" metav1.zeroListOptions]), w2)) /\
  (forall w res w1 review w2,
     discover LinkAPIGroupVersion w = ((res, None), w1) ->
     present LinkAPIGroupVersion LinkKind res ->
     AuthorizationV1_SelfSubjectAccessReviews_Create k8sClient
       (BuildSelfQuery "" "list" LinkAPIGroup LinkAPIVersion "links" "") w1
       = ((review, Some e), w2) ->
     LinkAccess k8sClient w
     = ((Some e,
         [ServerResourcesForGroupVersion LinkAPIGroupVersion;
          SelfSubjectAccessReviews_Create
            (BuildSelfQuery "" "list" LinkAPIGroup LinkAPIVersion "links" "")]), w2)).
Proof.
  assert (Hself : forall namespace verb group version resource name w review w1,
     AuthorizationV1_SelfSubjectAccessReviews_Create k8sClient
       (BuildSelfQuery namespace verb group version resource name) w
       = ((review, Some e), w1) ->
     ResourceAuthz k8sClient namespace verb group version resource name w
     = ((Some e,
         [SelfSubjectAccessReviews_Create
            (BuildSelfQuery namespace verb group version resource name)]), w1)).
  { intros * H. rewrite ResourceAuthz_run. cbv zeta. rewrite H. reflexivity. }
  repeat match goal with |- _ /\ _ => split end.
  - intros w res w1 H. exact (capability_error ServiceProfilesAccess_refines _ H).
  - intros w res w1 H. exact (capability_error EndpointSliceAccess_refines _ H).
  - intros w res w1 H. exact (capability_error LinkAccess_refines _ H).
  - exact Hself.
  - intros * H. rewrite ResourceAuthzForUser_run. cbv zeta. rewrite H. reflexivity.
  - intros w review w1 H. unfold ClusterAccess. exact (Hself _ _ _ _ _ _ _ _ _ H).
  - intros w sliceList w1 H. rewrite checkEndpointSlicesExist_run, H. reflexivity.
  - intros w res w1 review w2 Hd Hp H.
    rewrite (capability_present ServiceProfilesAccess_refines _ Hd Hp).
    rewrite (Hself _ _ _ _ _ _ _ _ _ H). reflexivity.
  - intros w res w1 sliceList w2 Hd Hp H.
    rewrite (capability_present EndpointSliceAccess_refines _ Hd Hp).
    rewrite checkEndpointSlicesExist_run, H. reflexivity.
  - intros w res w1 review w2 Hd Hp H.
    rewrite (capability_present LinkAccess_refines _ Hd Hp).
    rewrite (Hself _ _ _ _ _ _ _ _ _ H). reflexivity.
Qed.

(** C9. Once discovery has confirmed the capability, the requests of
    [ServiceProfilesAccess] are the probe of the ServiceProfile API version
    followed by a self-subject review for group "linkerd.io" with an empty
    version, while those of [LinkAccess] are the probe of the Link
    group-version followed by a self-subject review carrying the Link CRD's
    own group and version. *)
Theorem authorization_query_versions (w w1 : W) (res : metav1.APIResourceList) :
  (discover ServiceProfileAPIVersion w = ((res, None), w1) ->
   present ServiceProfileAPIVersion ServiceProfileKind res ->
   exists query,
     requests (ServiceProfilesAccess k8sClient w)
     = [ServerResourcesForGroupVersion ServiceProfileAPIVersion;
        SelfSubjectAccessReviews_Create query] /\
     authV1.ssar_ResourceAttributes (authV1.ssar_Spec query)
     = Some {| authV1.Namespace := "";
               authV1.Verb := "list";
               authV1.Group := "linkerd.io";
               authV1.Version := "";
               authV1.Resource := "serviceprofiles";
               authV1.Subresource := "";
               authV1.Name := "" |}) /\
  (discover LinkAPIGroupVersion w = ((res, None), w1) ->
   present LinkAPIGroupVersion LinkKind res ->
   exists query,
     requests (LinkAccess k8sClient w)
     = [ServerResourcesForGroupVersion LinkAPIGroupVersion;
        SelfSubjectAccessReviews_Create query] /\
     authV1.ssar_ResourceAttributes (authV1.ssar_Spec query)
     = Some {| authV1.Namespace := "";
               authV1.Verb := "list";
               authV1.Group := LinkAPIGroup;
               authV1.Version := LinkAPIVersion;
               authV1.Resource := "links";
               authV1.Subresource := "";
               authV1.Name := "" |}).
Proof.
  split; intros Hd Hp.
  - exists (BuildSelfQuery "" "list" "linkerd.io" "" "serviceprofiles" "").
    rewrite (capability_present ServiceProfilesAccess_refines _ Hd Hp).
    unfold after, requests at 1. simpl. rewrite ResourceAuthz_requests.
    split; reflexivity.
  - exists (BuildSelfQuery "" "list" LinkAPIGroup LinkAPIVersion "links" "").
    rewrite (capability_present LinkAccess_refines _ Hd Hp).
    unfold after, requests at 1. simpl. rewrite ResourceAuthz_requests.
    split; reflexivity.
Qed.

(** C10. No request of the four public checks is a subject review, and every
    self-subject review among them has an empty subresource; the same holds
    of [ResourceAuthz] for all its arguments.  Only [ResourceAuthzForUser]
    takes a subresource, and the one review it sends carries it. *)
Theorem self_reviews_carry_no_subresource :
  (forall w, forallb withoutSubresource
               (requests (ServiceProfilesAccess k8sClient w)) = true) /\
  (forall w, forallb withoutSubresource
               (requests (EndpointSliceAccess k8sClient w)) = true) /\
  (forall w, forallb withoutSubresource (requests (LinkAccess k8sClient w)) = true) /\
  (forall w, forallb withoutSubresource (requests (ClusterAccess k8sClient w)) = true) /\
  (forall namespace verb group version resource name w,
     forallb withoutSubresource
       (requests (ResourceAuthz k8sClient namespace verb group version resource name w))
     = true) /\
  (forall namespace verb group version resource subresource name user userGroups w,
     exists sar,
       requests (ResourceAuthzForUser k8sClient namespace verb group version resource
                   subresource name user userGroups w)
       = [SubjectAccessReviews_Create sar] /\
       option_map authV1.Subresource (attributesOf (SubjectAccessReviews_Create sar))
       = Some subresource).
Proof.
  assert (Hself : forall namespace verb group version resource name w,
     forallb withoutSubresource
       (requests (ResourceAuthz k8sClient namespace verb group version resource name w))
     = true).
  { intros. rewrite ResourceAuthz_requests. reflexivity. }
  repeat match goal with |- _ /\ _ => split end.
  - intros w. apply (capability_requests_all ServiceProfilesAccess_refines); [reflexivity | intros; apply Hself].
  - intros w. apply (capability_requests_all EndpointSliceAccess_refines); [reflexivity|].
    intros w1. rewrite checkEndpointSlicesExist_requests. reflexivity.
  - intros w. apply (capability_requests_all LinkAccess_refines); [reflexivity | intros; apply Hself].
  - intros w. apply Hself.
  - exact Hself.
  - intros. eexists. rewrite ResourceAuthzForUser_run. cbv zeta.
    destruct (AuthorizationV1_SubjectAccessReviews_Create _ _ _) as [[review e] w1].
    split; reflexivity.
Qed.

End Properties.

(** * The checks on the scripted clusters *)

(** The four end-to-end scenarios of the specification. *)
Example scenario_profile_kind_missing :
  result (ServiceProfilesAccess (env := linkerd) (scripted bare) 0)
  = Some (errorString "ServiceProfile CRD not found").
Proof. reflexivity. Qed.

Example scenario_profile_denied :
  result (ServiceProfilesAccess (env := linkerd) (scripted forbidden) 0)
  = Some (errorString
            "not authorized to access serviceprofiles.linkerd.io: user cannot list resource").
Proof. reflexivity. Qed.

Example scenario_pods_allowed :
  result (ClusterAccess (env := linkerd) (scripted healthy) 0) = None /\
  length (requests (ClusterAccess (env := linkerd) (scripted healthy) 0)) = 1.
Proof. split; reflexivity. Qed.

Example scenario_no_slices :
  EndpointSliceAccess (env := linkerd) (scripted sliceless) 0
  = ((Some (errorString "no EndpointSlice resources exist in the cluster"),
      [ServerResourcesForGroupVersion "discovery.k8s.io/v1beta1";
       EndpointSlices_List "" metav1.zeroListOptions]), 2).
Proof. reflexivity. Qed.

(** A same-named kind under another group-version string does not count. *)
Example kind_under_other_group_version :
  let moved gv :=
    ({| metav1.GroupVersion := "linkerd.io/v1beta9";
        metav1.APIResources := [apiResource "serviceprofiles" "ServiceProfile"] |},
     @None (error string)) in
  result (ServiceProfilesAccess (env := linkerd)
            (scripted {| serves := moved; verdict := verdict healthy;
                         slices := slices healthy |}) 0)
  = Some (errorString "ServiceProfile CRD not found").
Proof. reflexivity. Qed.

(** Witness of C1: the bare cluster ends profile access with the not-found
    error after the probe alone; on clusters that list the kind, the
    endpoint-collection check goes on as the instance check and link access
    as the authorization query. *)
Lemma capability_gate_witness :
  ServiceProfilesAccess (env := linkerd) (scripted bare) 0
  = ((Some (errorString "ServiceProfile CRD not found"),
      [ServerResourcesForGroupVersion "linkerd.io/v1alpha2"]), 1) /\
  EndpointSliceAccess (env := linkerd) (scripted healthy) 0
  = after [ServerResourcesForGroupVersion "discovery.k8s.io/v1beta1"]
      (checkEndpointSlicesExist (scripted healthy) 1) /\
  LinkAccess (env := linkerd) (scripted forbidden) 0
  = after [ServerResourcesForGroupVersion "multicluster.linkerd.io/v1alpha1"]
      (ResourceAuthz (env := linkerd) (scripted forbidden) "" "list"
         "multicluster.linkerd.io" "v1alpha1" "links" "" 1).
Proof.
  destruct (@capability_gate string nat linkerd (scripted bare)) as [Hsp _].
  destruct (@capability_gate string nat linkerd (scripted healthy)) as [_ [Hes _]].
  destruct (@capability_gate string nat linkerd (scripted forbidden)) as [_ [_ Hl]].
  split; [|split].
  - refine (proj1 (Hsp 0 1 _ eq_refl) _). right. intros apiRes [].
  - refine (proj2 (Hes 0 1 _ eq_refl) _). split; [reflexivity|].
    eexists. split; [left; reflexivity | reflexivity].
  - refine (proj2 (Hl 0 1 _ eq_refl) _). split; [reflexivity|].
    eexists. split; [left; reflexivity | reflexivity].
Defined.

(** C2 as the specification words it fails: for group "linkerd.io", resource
    "serviceprofiles" and a denial without reason the message reads
    "not authorized to access serviceprofiles.linkerd.io", not
    "not authorized to access linkerd.io/serviceprofiles". *)
Lemma denied_message_not_group_slash_kind :
  evaluateAccessReviewStatus (T := string) (env := linkerd)
    "linkerd.io" "serviceprofiles" (deny "")
  = Some (errorString "not authorized to access serviceprofiles.linkerd.io") /\
  evaluateAccessReviewStatus (T := string) (env := linkerd)
    "linkerd.io" "serviceprofiles" (deny "")
  <> Some (errorString (slashMessage "linkerd.io" "serviceprofiles" "")).
Proof. split; [reflexivity | discriminate]. Qed.

(** Witness of C2 as amended: a denial with a reason and one without. *)
Lemma denied_message_witness :
  evaluateAccessReviewStatus (T := string) (env := linkerd)
    "linkerd.io" "serviceprofiles" (deny "user cannot list resource")
  = Some (errorString
            "not authorized to access serviceprofiles.linkerd.io: user cannot list resource") /\
  evaluateAccessReviewStatus (T := string) (env := linkerd) "" "pods" (deny "")
  = Some (errorString "not authorized to access pods").
Proof.
  split.
  - refine (proj1 (@denied_message string linkerd "linkerd.io" "serviceprofiles"
                     (deny "user cannot list resource") eq_refl) _).
    discriminate.
  - refine (proj2 (@denied_message string linkerd "" "pods" (deny "") eq_refl) _).
    reflexivity.
Defined.

(** Witness of C3: on the bare cluster profile access reports not found and
    sends no review although the authorizer would deny; on the forbidden
    cluster the review that was sent follows a confirming probe. *)
Lemma discovery_precedes_authorization_witness :
  (result (ServiceProfilesAccess (env := linkerd) (scripted bare) 0)
   = Some (errorString "ServiceProfile CRD not found") /\
   forallb (fun rq => negb (isAccessReview rq))
     (requests (ServiceProfilesAccess (env := linkerd) (scripted bare) 0)) = true) /\
  exists res w1 later,
    Discovery_ServerResourcesForGroupVersion (scripted forbidden)
      "multicluster.linkerd.io/v1alpha1" 0 = ((res, None), w1) /\
    present "multicluster.linkerd.io/v1alpha1" "Link" res /\
    requests (LinkAccess (env := linkerd) (scripted forbidden) 0)
    = ServerResourcesForGroupVersion "multicluster.linkerd.io/v1alpha1" :: later /\
    In (SelfSubjectAccessReviews_Create
          (BuildSelfQuery "" "list" "multicluster.linkerd.io" "v1alpha1" "links" ""))
       later.
Proof.
  destruct (@discovery_precedes_authorization string nat linkerd (scripted bare))
    as [Hsp _].
  destruct (@discovery_precedes_authorization string nat linkerd (scripted forbidden))
    as [_ [_ Hl]].
  split.
  - destruct (proj2 (Hsp 0) _ 1 eq_refl) as [Hr [_ Hs]].
    + right. intros apiRes [].
    + split; [exact Hr | exact Hs].
  - refine (proj1 (Hl 0)
              (SelfSubjectAccessReviews_Create
                 (BuildSelfQuery "" "list" "multicluster.linkerd.io" "v1alpha1"
                    "links" "")) _ eq_refl).
    right. left. reflexivity.
Defined.

(** Witness of C4: one slice on the healthy cluster, none on the sliceless
    one, and a failing listing on the flaky one. *)
Lemma instances_exist_witness :
  result (checkEndpointSlicesExist (scripted healthy) 5) = None /\
  result (checkEndpointSlicesExist (scripted sliceless) 5)
  = Some (errorString "no EndpointSlice resources exist in the cluster") /\
  result (checkEndpointSlicesExist (scripted flaky) 5) = Some (clientError "i/o timeout").
Proof.
  split; [|split].
  - destruct (@instances_exist string nat (scripted healthy) 5 6 _ _ eq_refl)
      as [Hiff _].
    apply Hiff. split; [reflexivity | simpl; lia].
  - destruct (@instances_exist string nat (scripted sliceless) 5 6 _ _ eq_refl)
      as [_ [Hempty _]].
    apply Hempty; reflexivity.
  - destruct (@instances_exist string nat (scripted flaky) 5 6 _ _ eq_refl)
      as [_ [_ [Herr _]]].
    apply Herr. reflexivity.
Defined.

(** Witness of C6: the healthy cluster allows, and the pod check sends the
    one review. *)
Lemma ClusterAccess_only_authorizes_witness :
  ClusterAccess (env := linkerd) (scripted healthy) 0
  = ((None,
      [SelfSubjectAccessReviews_Create (BuildSelfQuery "" "list" "" "" "pods" "")]), 1).
Proof.
  destruct (@ClusterAccess_only_authorizes string nat linkerd (scripted healthy) 0)
    as [_ [_ H]].
  exact (H _ 1 eq_refl eq_refl).
Defined.

(** Witness of C7: the sliceless cluster. *)
Lemma EndpointSliceAccess_never_authorizes_witness :
  requests (EndpointSliceAccess (env := linkerd) (scripted sliceless) 0)
  = [ServerResourcesForGroupVersion "discovery.k8s.io/v1beta1";
     EndpointSlices_List "" metav1.zeroListOptions] /\
  result (EndpointSliceAccess (env := linkerd) (scripted sliceless) 0)
  = Some (errorString "no EndpointSlice resources exist in the cluster").
Proof.
  destruct (@EndpointSliceAccess_never_authorizes string nat linkerd
              (scripted sliceless) 0) as [_ H].
  assert (Hp : present (discovery_SchemeGroupVersion_String (Env := linkerd))
                 "EndpointSlice" (installed "discovery.k8s.io/v1beta1")).
  { split; [reflexivity|]. eexists. split; [left; reflexivity | reflexivity]. }
  destruct (H (installed "discovery.k8s.io/v1beta1") 1 {| discovery.Items := [] |} 2
              eq_refl Hp eq_refl) as [Hreq [_ [_ Hnone]]].
  split; [exact Hreq | apply Hnone; reflexivity].
Defined.

(** Witness of C8: an unreachable API server at the first round trip, and a
    failing review and a failing listing at the second. *)
Lemma transport_errors_propagate_witness :
  ServiceProfilesAccess (env := linkerd) (scripted unreachable) 0
  = ((Some (clientError "connection refused"),
      [ServerResourcesForGroupVersion "linkerd.io/v1alpha2"]), 1) /\
  ClusterAccess (env := linkerd) (scripted unreachable) 0
  = ((Some (clientError "connection refused"),
      [SelfSubjectAccessReviews_Create (BuildSelfQuery "" "list" "" "" "pods" "")]), 1) /\
  LinkAccess (env := linkerd) (scripted flaky) 0
  = ((Some (clientError "i/o timeout"),
      [ServerResourcesForGroupVersion "multicluster.linkerd.io/v1alpha1";
       SelfSubjectAccessReviews_Create
         (BuildSelfQuery "" "list" "multicluster.linkerd.io" "v1alpha1" "links" "")]),
     2) /\
  EndpointSliceAccess (env := linkerd) (scripted flaky) 0
  = ((Some (clientError "i/o timeout"),
      [ServerResourcesForGroupVersion "discovery.k8s.io/v1beta1";
       EndpointSlices_List "" metav1.zeroListOptions]), 2).
Proof.
  destruct (@transport_errors_propagate string nat linkerd (scripted unreachable)
              (clientError "connection refused"))
    as [Hsp [_ [_ [_ [_ [Hpods _]]]]]].
  destruct (@transport_errors_propagate string nat linkerd (scripted flaky)
              (clientError "i/o timeout"))
    as [_ [_ [_ [_ [_ [_ [_ [_ [Hes Hl]]]]]]]]].
  split; [|split; [|split]].
  - exact (Hsp 0 _ 1 eq_refl).
  - exact (Hpods 0 _ 1 eq_refl).
  - refine (Hl 0 _ 1 _ 2 eq_refl _ eq_refl). split; [reflexivity|].
    eexists. split; [left; reflexivity | reflexivity].
  - refine (Hes 0 _ 1 _ 2 eq_refl _ eq_refl). split; [reflexivity|].
    eexists. split; [left; reflexivity | reflexivity].
Defined.

(** Witness of C9: the two authorization queries on the healthy cluster. *)
Lemma authorization_query_versions_witness :
  (exists query,
     requests (ServiceProfilesAccess (env := linkerd) (scripted healthy) 0)
     = [ServerResourcesForGroupVersion "linkerd.io/v1alpha2";
        SelfSubjectAccessReviews_Create query] /\
     option_map authV1.Version
       (authV1.ssar_ResourceAttributes (authV1.ssar_Spec query)) = Some "") /\
  (exists query,
     requests (LinkAccess (env := linkerd) (scripted healthy) 0)
     = [ServerResourcesForGroupVersion "multicluster.linkerd.io/v1alpha1";
        SelfSubjectAccessReviews_Create query] /\
     option_map authV1.Version
       (authV1.ssar_ResourceAttributes (authV1.ssar_Spec query)) = Some "v1alpha1").
Proof.
  split.
  - destruct (proj1 (@authorization_query_versions string nat linkerd (scripted healthy)
                       0 1 (installed "linkerd.io/v1alpha2")) eq_refl)
      as [query [Hreq Hattr]].
    + split; [reflexivity|]. eexists. split; [right; left; reflexivity | reflexivity].
    + exists query. split; [exact Hreq|]. rewrite Hattr. reflexivity.
  - destruct (proj2 (@authorization_query_versions string nat linkerd (scripted healthy)
                       0 1 (installed "multicluster.linkerd.io/v1alpha1")) eq_refl)
      as [query [Hreq Hattr]].
    + split; [reflexivity|]. eexists. split; [left; reflexivity | reflexivity].
    + exists query. split; [exact Hreq|]. rewrite Hattr. reflexivity.
Defined.

(** * Further properties of authz.go *)

Section Outcomes.
Context {T W : Type} {env : Env}.
Variable k8sClient : Interface T W.

Local Abbreviation err := (option (error T)).
Local Abbreviation discover := (Discovery_ServerResourcesForGroupVersion k8sClient).
Local Abbreviation createSelf :=
  (AuthorizationV1_SelfSubjectAccessReviews_Create k8sClient).
Local Abbreviation listSlices :=
  (DiscoveryV1beta1_EndpointSlices_List k8sClient "" metav1.zeroListOptions).

(** Unfold a probing check into the run of its capability check. *)
Ltac run_probe :=
  rewrite ?ServiceProfilesAccess_refines, ?EndpointSliceAccess_refines,
          ?LinkAccess_refines, ?CheckCapability_run.

Lemma evaluate_nil_iff group resource (status : authV1.SubjectAccessReviewStatus) :
  evaluateAccessReviewStatus (T := T) group resource status = None
  <-> authV1.Allowed status = true.
Proof.
  unfold evaluateAccessReviewStatus.
  destruct (authV1.Allowed status); [tauto|].
  destruct (nonempty _); split; discriminate.
Qed.

Lemma confirmed_same_kinds gv kind (res res' : metav1.APIResourceList) :
  metav1.GroupVersion res = metav1.GroupVersion res' ->
  (forall kd, In kd (map metav1.Kind (metav1.APIResources res)) <->
              In kd (map metav1.Kind (metav1.APIResources res'))) ->
  confirmed gv kind res = confirmed gv kind res'.
Proof.
  intros Hgv Hk. unfold confirmed. rewrite Hgv. f_equal.
  apply eq_true_iff_eq. rewrite !kindListed_true.
  specialize (Hk kind). rewrite !in_map_iff in Hk.
  split; intros [r [Hin Hkd]].
  - destruct (proj1 Hk (ex_intro _ r (conj Hkd Hin))) as [r' [Hkd' Hin']]. eauto.
  - destruct (proj2 Hk (ex_intro _ r (conj Hkd Hin))) as [r' [Hkd' Hin']]. eauto.
Qed.

Lemma probed_succeeds_iff (check onFound : M W err) gv kind notFound (w : W) :
  (forall w0, check w0 = CheckCapability k8sClient gv kind notFound onFound w0) ->
  (result (check w) = None <->
   exists res w1,
     discover gv w = ((res, None), w1) /\ present gv kind res /\
     result (onFound w1) = None).
Proof.
  intros Href. rewrite Href, CheckCapability_run.
  destruct (discover gv w) as [[res [e|]] w1] eqn:Hd.
  - split; [discriminate|]. intros [res' [w1' [H _]]]. discriminate H.
  - destruct (confirmed gv kind res) eqn:Hc.
    + apply confirmed_present in Hc. split.
      * intros H. exists res, w1. auto.
      * intros [res' [w1' [H [_ Hr]]]]. injection H as <- <-. exact Hr.
    + split; [discriminate|].
      intros [res' [w1' [H [Hp _]]]]. injection H as <- <-.
      apply confirmed_present in Hp. congruence.
Qed.

Lemma ResourceAuthz_nil_iff namespace verb group version resource name (w : W) :
  result (ResourceAuthz k8sClient namespace verb group version resource name w) = None
  <-> exists review w1,
        createSelf (BuildSelfQuery namespace verb group version resource name) w
          = ((review, None), w1) /\
        authV1.Allowed (authV1.ssar_Status review) = true.
Proof.
  rewrite ResourceAuthz_run. cbv zeta.
  destruct (createSelf _ w) as [[review [e|]] w1].
  - split; [discriminate|]. intros [r [w' [H _]]]. discriminate H.
  - unfold result. simpl. rewrite evaluate_nil_iff. split.
    + intros H. exists review, w1. auto.
    + intros [r [w' [H Ha]]]. injection H as <- <-. exact Ha.
Qed.

(** X1. [ResourceAuthz] returns nil exactly when the review it submitted came
    back without error and with [Allowed] set; in every case the cluster is
    left as that one call left it. *)
Theorem ResourceAuthz_succeeds_iff
    namespace verb group version resource name (w w1 : W)
    (review : authV1.SelfSubjectAccessReview) (e : err) :
  createSelf (BuildSelfQuery namespace verb group version resource name) w
    = ((review, e), w1) ->
  (result (ResourceAuthz k8sClient namespace verb group version resource name w) = None
   <-> e = None /\ authV1.Allowed (authV1.ssar_Status review) = true) /\
  cluster (ResourceAuthz k8sClient namespace verb group version resource name w) = w1.
Proof.
  intros H. rewrite ResourceAuthz_run. cbv zeta. rewrite H.
  unfold result, cluster. simpl. split; [|reflexivity].
  destruct e as [e0|].
  - split; [discriminate | intros [? _]; discriminate].
  - rewrite evaluate_nil_iff. tauto.
Qed.

(** X2. [ResourceAuthzForUser] sends exactly one subject access review, which
    carries the user, the groups and all seven resource attributes as given.
    It returns nil exactly when that review came back without error and
    allowed; an error of the client is returned as it is, and otherwise the
    result is decided from group, resource and the returned status alone. *)
Theorem ResourceAuthzForUser_outcome
    namespace verb group version resource subresource name user
    (userGroups : list string) (w : W) :
  let sar :=
    {| authV1.sar_Spec :=
         {| authV1.sar_ResourceAttributes :=
              Some {| authV1.Namespace := namespace;
                      authV1.Verb := verb;
                      authV1.Group := group;
                      authV1.Version := version;
                      authV1.Resource := resource;
                      authV1.Subresource := subresource;
                      authV1.Name := name |};
            authV1.User := user;
            authV1.Groups := userGroups |};
       authV1.sar_Status := authV1.zeroStatus |} in
  let out := ResourceAuthzForUser k8sClient namespace verb group version resource
               subresource name user userGroups w in
  requests out = [SubjectAccessReviews_Create sar] /\
  (forall review e w1,
     AuthorizationV1_SubjectAccessReviews_Create k8sClient sar w = ((review, e), w1) ->
     (result out = None
      <-> e = None /\ authV1.Allowed (authV1.sar_Status review) = true) /\
     (forall e0, e = Some e0 -> result out = Some e0) /\
     (e = None ->
      result out
      = evaluateAccessReviewStatus group resource (authV1.sar_Status review)) /\
     cluster out = w1).
Proof.
  intros sar out. unfold out. rewrite ResourceAuthzForUser_run. cbv zeta.
  change (BuildSubjectQuery namespace verb group version resource subresource name
            user userGroups) with sar.
  split.
  - destruct (AuthorizationV1_SubjectAccessReviews_Create k8sClient sar w)
      as [[review e] w1]. reflexivity.
  - intros review e w1 H. rewrite H. unfold result, cluster. simpl.
    split; [|split; [|split]].
    + destruct e as [e0|].
      * split; [discriminate | intros [? _]; discriminate].
      * rewrite evaluate_nil_iff. tauto.
    + intros e0 ->. reflexivity.
    + intros ->. reflexivity.
    + reflexivity.
Qed.

(** X3. [evaluateAccessReviewStatus] returns nil exactly when [Allowed] is
    set, and reads nothing of the status but [Allowed] and [Reason]: two
    statuses that agree on these two fields give the same result, whatever
    [Denied] and [EvaluationError] hold. *)
Theorem evaluateAccessReviewStatus_reads_allowed_and_reason
    group resource (status status' : authV1.SubjectAccessReviewStatus) :
  (evaluateAccessReviewStatus (T := T) group resource status = None
   <-> authV1.Allowed status = true) /\
  (authV1.Allowed status = authV1.Allowed status' ->
   authV1.Reason status = authV1.Reason status' ->
   evaluateAccessReviewStatus (T := T) group resource status
   = evaluateAccessReviewStatus group resource status').
Proof.
  split; [apply evaluate_nil_iff|].
  intros Ha Hr. unfold evaluateAccessReviewStatus. rewrite Ha, Hr. reflexivity.
Qed.

(** X4. [ServiceProfilesAccess] returns nil exactly when the discovery probe
    was answered without error, the answer echoed the group-version and
    listed the kind, and the review submitted next came back without error
    and allowed. *)
Theorem ServiceProfilesAccess_succeeds_iff (w : W) :
  result (ServiceProfilesAccess k8sClient w) = None <->
  exists res w1 review w2,
    discover ServiceProfileAPIVersion w = ((res, None), w1) /\
    present ServiceProfileAPIVersion ServiceProfileKind res /\
    createSelf (BuildSelfQuery "" "list" "linkerd.io" "" "serviceprofiles" "") w1
      = ((review, None), w2) /\
    authV1.Allowed (authV1.ssar_Status review) = true.
Proof.
  rewrite (@probed_succeeds_iff _ _ _ _ _ w (ServiceProfilesAccess_refines k8sClient)).
  split.
  - intros [res [w1 [Hd [Hp Hr]]]]. apply ResourceAuthz_nil_iff in Hr.
    destruct Hr as [review [w2 [Hc Ha]]]. exists res, w1, review, w2. auto.
  - intros [res [w1 [review [w2 [Hd [Hp [Hc Ha]]]]]]]. exists res, w1.
    split; [exact Hd|]. split; [exact Hp|]. apply ResourceAuthz_nil_iff. eauto.
Qed.

(** X5. [LinkAccess] returns nil exactly when the probe of the Link
    group-version was answered without error and confirmed the Link kind, and
    the review for links in the Link group and version came back without
    error and allowed. *)
Theorem LinkAccess_succeeds_iff (w : W) :
  result (LinkAccess k8sClient w) = None <->
  exists res w1 review w2,
    discover LinkAPIGroupVersion w = ((res, None), w1) /\
    present LinkAPIGroupVersion LinkKind res /\
    createSelf (BuildSelfQuery "" "list" LinkAPIGroup LinkAPIVersion "links" "") w1
      = ((review, None), w2) /\
    authV1.Allowed (authV1.ssar_Status review) = true.
Proof.
  rewrite (@probed_succeeds_iff _ _ _ _ _ w (LinkAccess_refines k8sClient)).
  split.
  - intros [res [w1 [Hd [Hp Hr]]]]. apply ResourceAuthz_nil_iff in Hr.
    destruct Hr as [review [w2 [Hc Ha]]]. exists res, w1, review, w2. auto.
  - intros [res [w1 [review [w2 [Hd [Hp [Hc Ha]]]]]]]. exists res, w1.
    split; [exact Hd|]. split; [exact Hp|]. apply ResourceAuthz_nil_iff. eauto.
Qed.

(** X6. [EndpointSliceAccess] returns nil exactly when the probe was answered
    without error and confirmed the EndpointSlice kind, and the cluster-wide
    listing made next came back without error and with at least one item. *)
Theorem EndpointSliceAccess_succeeds_iff (w : W) :
  result (EndpointSliceAccess k8sClient w) = None <->
  exists res w1 sliceList w2,
    discover discovery_SchemeGroupVersion_String w = ((res, None), w1) /\
    present discovery_SchemeGroupVersion_String "EndpointSlice" res /\
    listSlices w1 = ((sliceList, None), w2) /\
    discovery.Items sliceList <> [].
Proof.
  rewrite (@probed_succeeds_iff _ _ _ _ _ w (EndpointSliceAccess_refines k8sClient)).
  assert (Hnil : forall w1,
    result (checkEndpointSlicesExist k8sClient w1) = None <->
    exists sliceList w2,
      listSlices w1 = ((sliceList, None), w2) /\ discovery.Items sliceList <> []).
  { intros w1. rewrite checkEndpointSlicesExist_run.
    destruct (listSlices w1) as [[sl [e|]] w2].
    - split; [discriminate|]. intros [s [w' [H _]]]. discriminate H.
    - unfold result. simpl. split.
      + intros H. exists sl, w2. split; [reflexivity|].
        destruct (discovery.Items sl); [discriminate H | discriminate].
      + intros [s [w' [H Hne]]]. injection H as <- <-.
        destruct (discovery.Items sl); [congruence | reflexivity]. }
  split.
  - intros [res [w1 [Hd [Hp Hr]]]]. apply Hnil in Hr.
    destruct Hr as [sl [w2 [Hl Hne]]]. exists res, w1, sl, w2. auto.
  - intros [res [w1 [sl [w2 [Hd [Hp [Hl Hne]]]]]]]. exists res, w1.
    split; [exact Hd|]. split; [exact Hp|]. apply Hnil. eauto.
Qed.

(** X7. A denial reaches the caller of each authorizing check: when the
    review came back without error and not allowed, the result is the
    not-authorized error for the group and the plural resource name the
    check asked about (linkerd.io and serviceprofiles, the Link group and
    links, the empty group and pods), with the server's reason appended
    when there is one. *)
Theorem denial_reaches_caller (w w1 w2 : W) (res : metav1.APIResourceList)
    (review : authV1.SelfSubjectAccessReview) :
  authV1.Allowed (authV1.ssar_Status review) = false ->
  let reason := authV1.Reason (authV1.ssar_Status review) in
  let denial gk : error T :=
    if nonempty reason then notAuthorizedReason gk reason else notAuthorized gk in
  (discover ServiceProfileAPIVersion w = ((res, None), w1) ->
   present ServiceProfileAPIVersion ServiceProfileKind res ->
   createSelf (BuildSelfQuery "" "list" "linkerd.io" "" "serviceprofiles" "") w1
     = ((review, None), w2) ->
   result (ServiceProfilesAccess k8sClient w)
   = Some (denial {| schema.Group := "linkerd.io";
                     schema.Kind := "serviceprofiles" |})) /\
  (discover LinkAPIGroupVersion w = ((res, None), w1) ->
   present LinkAPIGroupVersion LinkKind res ->
   createSelf (BuildSelfQuery "" "list" LinkAPIGroup LinkAPIVersion "links" "") w1
     = ((review, None), w2) ->
   result (LinkAccess k8sClient w)
   = Some (denial {| schema.Group := LinkAPIGroup; schema.Kind := "links" |})) /\
  (createSelf (BuildSelfQuery "" "list" "" "" "pods" "") w = ((review, None), w2) ->
   result (ClusterAccess k8sClient w)
   = Some (denial {| schema.Group := ""; schema.Kind := "pods" |})).
Proof.
  intros Hdenied reason denial.
  assert (Hauthz : forall group version resource w0,
    createSelf (BuildSelfQuery "" "list" group version resource "") w0
      = ((review, None), w2) ->
    result (ResourceAuthz k8sClient "" "list" group version resource "" w0)
    = Some (denial {| schema.Group := group; schema.Kind := resource |})).
  { intros group version resource w0 H. rewrite ResourceAuthz_run. cbv zeta.
    rewrite H. unfold result, evaluateAccessReviewStatus. simpl.
    rewrite Hdenied. unfold denial, reason. destruct (nonempty _); reflexivity. }
  split; [|split].
  - intros Hd Hp Hc. apply confirmed_present in Hp. run_probe. rewrite Hd, Hp.
    exact (Hauthz _ _ _ _ Hc).
  - intros Hd Hp Hc. apply confirmed_present in Hp. run_probe. rewrite Hd, Hp.
    exact (Hauthz _ _ _ _ Hc).
  - intros Hc. exact (Hauthz _ _ _ _ Hc).
Qed.

(** X8. Whatever the cluster does, a probing check makes at most two round
    trips and the first is always its discovery probe: the requests of
    [ServiceProfilesAccess] and [LinkAccess] are the probe alone or the probe
    and their one review, and those of [EndpointSliceAccess] are the probe
    alone or the probe and the cluster-wide listing. *)
Theorem requests_of_probing_checks (w : W) :
  (requests (ServiceProfilesAccess k8sClient w)
   = [ServerResourcesForGroupVersion ServiceProfileAPIVersion] \/
   requests (ServiceProfilesAccess k8sClient w)
   = [ServerResourcesForGroupVersion ServiceProfileAPIVersion;
      SelfSubjectAccessReviews_Create
        (BuildSelfQuery "" "list" "linkerd.io" "" "serviceprofiles" "")]) /\
  (requests (EndpointSliceAccess k8sClient w)
   = [ServerResourcesForGroupVersion discovery_SchemeGroupVersion_String] \/
   requests (EndpointSliceAccess k8sClient w)
   = [ServerResourcesForGroupVersion discovery_SchemeGroupVersion_String;
      EndpointSlices_List "" metav1.zeroListOptions]) /\
  (requests (LinkAccess k8sClient w)
   = [ServerResourcesForGroupVersion LinkAPIGroupVersion] \/
   requests (LinkAccess k8sClient w)
   = [ServerResourcesForGroupVersion LinkAPIGroupVersion;
      SelfSubjectAccessReviews_Create
        (BuildSelfQuery "" "list" LinkAPIGroup LinkAPIVersion "links" "")]).
Proof.
  split; [|split]; run_probe.
  - destruct (discover _ w) as [[res [e|]] w1]; [left; reflexivity|].
    destruct (confirmed _ _ res); [right | left; reflexivity].
    unfold after, requests at 1. simpl. rewrite ResourceAuthz_requests. reflexivity.
  - destruct (discover _ w) as [[res [e|]] w1]; [left; reflexivity|].
    destruct (confirmed _ _ res); [right | left; reflexivity].
    unfold after, requests at 1. simpl. rewrite checkEndpointSlicesExist_requests.
    reflexivity.
  - destruct (discover _ w) as [[res [e|]] w1]; [left; reflexivity|].
    destruct (confirmed _ _ res); [right | left; reflexivity].
    unfold after, requests at 1. simpl. rewrite ResourceAuthz_requests. reflexivity.
Qed.

(** X9. A probing check reads the discovery answer only through its
    group-version string and the set of kinds it lists.  Two clusters that
    answer reviews and listings alike, and whose error-free discovery answers
    have the same group-version and the same kinds (in any order, any number
    of times, under any resource names), get the same outcome from each of
    the three checks. *)
Theorem discovery_answer_read_by_kinds (k' : Interface T W) (w w1 : W)
    (res res' : metav1.APIResourceList) :
  createSelf = AuthorizationV1_SelfSubjectAccessReviews_Create k' ->
  DiscoveryV1beta1_EndpointSlices_List k8sClient
    = DiscoveryV1beta1_EndpointSlices_List k' ->
  metav1.GroupVersion res = metav1.GroupVersion res' ->
  (forall kd, In kd (map metav1.Kind (metav1.APIResources res)) <->
              In kd (map metav1.Kind (metav1.APIResources res'))) ->
  (discover ServiceProfileAPIVersion w = ((res, None), w1) ->
   Discovery_ServerResourcesForGroupVersion k' ServiceProfileAPIVersion w
     = ((res', None), w1) ->
   ServiceProfilesAccess k8sClient w = ServiceProfilesAccess k' w) /\
  (discover discovery_SchemeGroupVersion_String w = ((res, None), w1) ->
   Discovery_ServerResourcesForGroupVersion k' discovery_SchemeGroupVersion_String w
     = ((res', None), w1) ->
   EndpointSliceAccess k8sClient w = EndpointSliceAccess k' w) /\
  (discover LinkAPIGroupVersion w = ((res, None), w1) ->
   Discovery_ServerResourcesForGroupVersion k' LinkAPIGroupVersion w
     = ((res', None), w1) ->
   LinkAccess k8sClient w = LinkAccess k' w).
Proof.
  intros Hcreate Hlist Hgv Hkinds.
  assert (Hauthz : forall group version resource w0,
    ResourceAuthz k8sClient "" "list" group version resource "" w0
    = ResourceAuthz k' "" "list" group version resource "" w0).
  { intros. rewrite !ResourceAuthz_run. cbv zeta. rewrite Hcreate. reflexivity. }
  assert (Hslices : forall w0,
    checkEndpointSlicesExist k8sClient w0 = checkEndpointSlicesExist k' w0).
  { intros. rewrite !checkEndpointSlicesExist_run, Hlist. reflexivity. }
  split; [|split]; intros Hd Hd'; run_probe; rewrite Hd, Hd';
    rewrite (@confirmed_same_kinds _ _ _ _ Hgv Hkinds);
    destruct (confirmed _ _ res'); try reflexivity.
  - rewrite Hauthz. reflexivity.
  - rewrite Hslices. reflexivity.
  - rewrite Hauthz. reflexivity.
Qed.

End Outcomes.

(** Witness of X1: the forbidden cluster denies, the healthy one allows. *)
Lemma ResourceAuthz_succeeds_iff_witness :
  result (ResourceAuthz (env := linkerd) (scripted healthy)
            "emojivoto" "get" "apps" "v1" "deployments" "web" 0) = None /\
  result (ResourceAuthz (env := linkerd) (scripted forbidden)
            "emojivoto" "get" "apps" "v1" "deployments" "web" 0) <> None.
Proof.
  split.
  - apply (proj1 (@ResourceAuthz_succeeds_iff string nat linkerd (scripted healthy)
                    "emojivoto" "get" "apps" "v1" "deployments" "web" 0 1 _ _ eq_refl)).
    split; reflexivity.
  - intros H.
    apply (proj1 (@ResourceAuthz_succeeds_iff string nat linkerd (scripted forbidden)
                    "emojivoto" "get" "apps" "v1" "deployments" "web" 0 1 _ _ eq_refl))
      in H.
    destruct H as [_ H]. discriminate H.
Defined.

(** Witness of X2: a review on behalf of a user on the healthy and on the
    unreachable cluster. *)
Lemma ResourceAuthzForUser_outcome_witness :
  result (ResourceAuthzForUser (env := linkerd) (scripted healthy)
            "emojivoto" "get" "apps" "v1" "deployments" "scale" "web"
            "alice" ["dev"; "ops"] 0) = None /\
  result (ResourceAuthzForUser (env := linkerd) (scripted unreachable)
            "emojivoto" "get" "apps" "v1" "deployments" "scale" "web"
            "alice" ["dev"; "ops"] 0) = Some (clientError "connection refused").
Proof.
  split.
  - destruct (@ResourceAuthzForUser_outcome string nat linkerd (scripted healthy)
                "emojivoto" "get" "apps" "v1" "deployments" "scale" "web"
                "alice" ["dev"; "ops"] 0) as [_ H].
    destruct (H _ _ 1 eq_refl) as [Hiff _]. apply Hiff. split; reflexivity.
  - destruct (@ResourceAuthzForUser_outcome string nat linkerd (scripted unreachable)
                "emojivoto" "get" "apps" "v1" "deployments" "scale" "web"
                "alice" ["dev"; "ops"] 0) as [_ H].
    destruct (H _ _ 1 eq_refl) as [_ [Herr _]]. apply Herr. reflexivity.
Defined.

(** Witness of X3: an evaluation error and an explicit deny flag change
    nothing. *)
Lemma evaluateAccessReviewStatus_reads_allowed_and_reason_witness :
  evaluateAccessReviewStatus (T := string) (env := linkerd) "" "pods"
    {| authV1.Allowed := false; authV1.Denied := true;
       authV1.Reason := "no"; authV1.EvaluationError := "webhook down" |}
  = evaluateAccessReviewStatus (T := string) (env := linkerd) "" "pods" (deny "no").
Proof.
  apply (proj2 (@evaluateAccessReviewStatus_reads_allowed_and_reason string linkerd
                  "" "pods" _ (deny "no"))); reflexivity.
Defined.

(** Witnesses of X4, X5 and X6: the three probing checks on the healthy
    cluster. *)
Lemma ServiceProfilesAccess_succeeds_iff_witness :
  result (ServiceProfilesAccess (env := linkerd) (scripted healthy) 0) = None.
Proof.
  apply (proj2 (@ServiceProfilesAccess_succeeds_iff string nat linkerd
                  (scripted healthy) 0)).
  exists (installed "linkerd.io/v1alpha2"), 1.
  eexists. exists 2. split; [reflexivity|]. split; [|split; reflexivity].
  split; [reflexivity|]. eexists. split; [right; left; reflexivity | reflexivity].
Defined.

Lemma LinkAccess_succeeds_iff_witness :
  result (LinkAccess (env := linkerd) (scripted healthy) 0) = None.
Proof.
  apply (proj2 (@LinkAccess_succeeds_iff string nat linkerd (scripted healthy) 0)).
  exists (installed "multicluster.linkerd.io/v1alpha1"), 1.
  eexists. exists 2. split; [reflexivity|]. split; [|split; reflexivity].
  split; [reflexivity|]. eexists. split; [left; reflexivity | reflexivity].
Defined.

Lemma EndpointSliceAccess_succeeds_iff_witness :
  result (EndpointSliceAccess (env := linkerd) (scripted healthy) 0) = None.
Proof.
  apply (proj2 (@EndpointSliceAccess_succeeds_iff string nat linkerd
                  (scripted healthy) 0)).
  exists (installed "discovery.k8s.io/v1beta1"), 1.
  eexists. exists 2. split; [reflexivity|]. split; [|split; [reflexivity|]].
  - split; [reflexivity|]. eexists. split; [left; reflexivity | reflexivity].
  - discriminate.
Defined.

(** Witness of X7: the forbidden cluster. *)
Lemma denial_reaches_caller_witness :
  result (ServiceProfilesAccess (env := linkerd) (scripted forbidden) 0)
  = Some (errorString
            "not authorized to access serviceprofiles.linkerd.io: user cannot list resource") /\
  result (ClusterAccess (env := linkerd) (scripted forbidden) 0)
  = Some (errorString "not authorized to access pods: user cannot list resource").
Proof.
  split.
  - refine (proj1 (@denial_reaches_caller string nat linkerd (scripted forbidden)
                     0 1 2 (installed "linkerd.io/v1alpha2")
                     {| authV1.ssar_Spec :=
                          authV1.ssar_Spec
                            (BuildSelfQuery "" "list" "linkerd.io" "" "serviceprofiles" "");
                        authV1.ssar_Status := deny "user cannot list resource" |}
                     eq_refl) eq_refl _ eq_refl).
    split; [reflexivity|]. eexists. split; [right; left; reflexivity | reflexivity].
  - exact (proj2 (proj2 (@denial_reaches_caller string nat linkerd (scripted forbidden)
                     0 1 1 noResources
                     {| authV1.ssar_Spec :=
                          authV1.ssar_Spec (BuildSelfQuery "" "list" "" "" "pods" "");
                        authV1.ssar_Status := deny "user cannot list resource" |}
                     eq_refl)) eq_refl).
Defined.

(** Witness of X9: a cluster that lists the Link kind twice, after another
    kind and under other resource names, gets what the healthy one gets. *)
Lemma discovery_answer_read_by_kinds_witness :
  let shuffled gv :=
    ({| metav1.GroupVersion := gv;
        metav1.APIResources := [apiResource "l1" "Link"; apiResource "l2" "Link"] |},
     @None (error string)) in
  LinkAccess (env := linkerd) (scripted healthy) 0
  = LinkAccess (env := linkerd)
      (scripted {| serves := shuffled; verdict := verdict healthy;
                   slices := slices healthy |}) 0.
Proof.
  intros shuffled.
  refine (proj2 (proj2 (@discovery_answer_read_by_kinds string nat linkerd
           (scripted healthy)
           (scripted {| serves := shuffled; verdict := verdict healthy;
                        slices := slices healthy |})
           0 1 (installed "multicluster.linkerd.io/v1alpha1")
           (fst (shuffled "multicluster.linkerd.io/v1alpha1"))
           eq_refl eq_refl eq_refl _)) eq_refl eq_refl).
  intros kd. simpl. tauto.
Defined.

